(** * Cafeteria Management System: a shallow embedding of [streamlit_app.py]

    The script keeps four values in [st.session_state] ([menu_items],
    [orders], [order_id_counter], [cart]) and mutates them from button and
    widget handlers.  Each handler is embedded as a function from the session
    (and the widget values it reads) to the feedback it shows and the session
    it leaves behind.

    Numbers are embedded as Python has them: [int] as [Z], [float] as the
    IEEE 754 binary64 type [float] of the kernel.  Tables ([DataFrame]s and
    the list of dicts of the cart) are lists of records, a row label of a
    [RangeIndex] is the position in the list. *)

From Stdlib Require Import ZArith List String Bool Floats Lia.
From stdpp Require Import base list.

Local Open Scope string_scope.
Local Open Scope Z_scope.
Local Set Warnings "-inexact-float".

(** ** Python arithmetic *)

Module Py.

(** [float(z)] for a Python [int]: the nearest binary64 value, ties to
    even.  (CPython raises [OverflowError] from [2^1024 - 2^970] on; an
    integer delivered by [st.number_input] is far below that.) *)
Definition float_of_int (z : Z) : float :=
  SF2Prim (binary_normalize prec emax z 0 false).

(** [x * n] and [n * x] for a [float] [x] and an [int] [n]: the integer is
    converted, then the floats are multiplied. *)
Definition mul_float_int (x : float) (n : Z) : float :=
  PrimFloat.mul x (float_of_int n).
Definition mul_int_float (n : Z) (x : float) : float :=
  PrimFloat.mul (float_of_int n) x.

(** [x > n] for a [float] [x] and an [int] literal [n]. *)
Definition gt_float_int (x : float) (n : Z) : bool :=
  PrimFloat.ltb (float_of_int n) x.

(** [sum(...)] over integers: the accumulator starts at [0] and the
    elements are added from the left. *)
Definition sum (xs : list Z) : Z := fold_left Z.add xs 0.

(** Truth value of a [str]: every string but the empty one. *)
Definition truthy (s : string) : bool :=
  match s with EmptyString => false | String _ _ => true end.

End Py.

(** ** pandas *)

Module Pd.

(** The eight running sums of numpy's unrolled summation loop. *)
Record acc8 := mkAcc8 {
  r0 : float; r1 : float; r2 : float; r3 : float;
  r4 : float; r5 : float; r6 : float; r7 : float
}.

(** The unrolled loop: as long as eight more values are there, the k-th of
    them is added to the k-th running sum.  What is returned with the sums
    are the values left over, fewer than eight. *)
Fixpoint unrolled_loop (r : acc8) (a : list float) : acc8 * list float :=
  match a with
  | a0 :: a1 :: a2 :: a3 :: a4 :: a5 :: a6 :: a7 :: rest =>
      unrolled_loop
        (mkAcc8 (r0 r + a0) (r1 r + a1) (r2 r + a2) (r3 r + a3)
                (r4 r + a4) (r5 r + a5) (r6 r + a6) (r7 r + a7))%float
        rest
  | _ => (r, a)
  end.

(** numpy's sum of one block (at most 128 values).  Fewer than eight values
    are added up from the left, starting from [0].  Otherwise the first eight
    values start the running sums, the unrolled loop adds the following
    groups of eight, the running sums are combined in pairs, and the values
    left over are added one by one. *)
Definition block_sum (a : list float) : float :=
  match a with
  | a0 :: a1 :: a2 :: a3 :: a4 :: a5 :: a6 :: a7 :: rest =>
      let '(r, tail) := unrolled_loop (mkAcc8 a0 a1 a2 a3 a4 a5 a6 a7) rest in
      fold_left PrimFloat.add tail
        (((r0 r + r1 r) + (r2 r + r3 r))
         + ((r4 r + r5 r) + (r6 r + r7 r)))%float
  | _ => fold_left PrimFloat.add a 0%float
  end.

(** numpy's pairwise summation of [n] values: one block up to 128 values;
    above that the first [n2] values and the others are summed separately
    and the two sums added, [n2] being [n / 2] rounded down to a multiple of
    eight.  Both parts are shorter than [n], so [fuel = n] is enough (see
    [pairwise_sum_fuel] below). *)
Fixpoint pairwise_sum (fuel : nat) (a : list float) : float :=
  let n := length a in
  if (n <=? 128)%nat then block_sum a
  else
    match fuel with
    | O => block_sum a
    | S fuel' =>
        let n2 := (n / 2 - (n / 2) mod 8)%nat in
        (pairwise_sum fuel' (take n2 a) + pairwise_sum fuel' (drop n2 a))%float
    end.

(** [Series.sum()] of a float64 column: [skipna=True] replaces every NaN
    by [0]; the values are then reduced by numpy's [add], which starts from
    the identity [0] and adds the pairwise sum of the column to it. *)
Definition sum (col : list float) : float :=
  let values := map (fun x => if PrimFloat.is_nan x then 0%float else x) col in
  (0 + pairwise_sum (length values) values)%float.

(** [Series.duplicated()] ([keep='first']): a row is marked when its value
    occurred in an earlier row. *)
Fixpoint duplicated_from (seen : list Z) (col : list Z) : list bool :=
  match col with
  | [] => []
  | x :: col' =>
      existsb (Z.eqb x) seen :: duplicated_from (x :: seen) col'
  end.
Definition duplicated (col : list Z) : list bool := duplicated_from [] col.

(** [Series.any()] of a boolean column. *)
Definition any (col : list bool) : bool := existsb (fun b => b) col.

(** [df.iloc[0]]: the first row; [None] stands for the [IndexError] of an
    empty frame. *)
Definition iloc0 {A} (df : list A) : option A := head df.

End Pd.

(** ** Data model *)

(** A row of [st.session_state.menu_items]. *)
Record MenuItem := mkMenuItem {
  item_id : Z;              (* 'Item ID' *)
  item_name : string;       (* 'Name' *)
  item_category : string;   (* 'Category' *)
  item_price : float;       (* 'Price' *)
  item_available : bool     (* 'Available' *)
}.

(** A dict of [st.session_state.cart], and a row of [cart_df]. *)
Record CartLine := mkCartLine {
  line_item_id : Z;         (* 'Item ID' *)
  line_name : string;       (* 'Name' *)
  line_price : float;       (* 'Price' *)
  line_quantity : Z;        (* 'Quantity' *)
  line_subtotal : float     (* 'Subtotal' *)
}.

(** The five strings a 'Status' cell can hold: ['Pending'] is written by the
    order handler, the others come from the status select box. *)
Inductive Status := Pending | Preparing | Ready | Completed | Cancelled.

(** A row of [st.session_state.orders]. *)
Record Order := mkOrder {
  order_id : Z;                    (* 'Order ID' *)
  order_timestamp : string;        (* 'Timestamp' *)
  order_items : list CartLine;     (* 'Items' *)
  order_total : float;             (* 'Total Amount' *)
  order_status : Status;           (* 'Status' *)
  order_instructions : string;     (* 'Instructions' *)
  order_pickup : string            (* 'Pickup Time' *)
}.

(** [st.session_state]. *)
Record Session := mkSession {
  menu_items : list MenuItem;
  orders : list Order;
  order_id_counter : Z;
  cart : list CartLine
}.

Definition set_menu_items (m : list MenuItem) (st : Session) : Session :=
  mkSession m (orders st) (order_id_counter st) (cart st).
Definition set_orders (os : list Order) (st : Session) : Session :=
  mkSession (menu_items st) os (order_id_counter st) (cart st).
Definition set_cart (c : list CartLine) (st : Session) : Session :=
  mkSession (menu_items st) (orders st) (order_id_counter st) c.
Definition set_status (s : Status) (o : Order) : Order :=
  mkOrder (order_id o) (order_timestamp o) (order_items o) (order_total o) s
    (order_instructions o) (order_pickup o).

(** What a handler shows to the user, or the exception that ends it. *)
Inductive Feedback :=
| Success         (* st.success(...) *)
| EmptyCart       (* st.warning("Your cart is empty. Cannot place an empty order.") *)
| DuplicateId     (* st.error("Item IDs must be unique. ...") *)
| OrderNotFound   (* st.error("Order ID not found.") *)
| Rerun           (* st.experimental_rerun() *)
| Nothing         (* the guarded block is skipped *)
| IndexError.     (* .iloc[0] on an empty selection *)

#[global] Instance Status_eq_dec : EqDecision Status.
Proof. solve_decision. Defined.
#[global] Instance Feedback_eq_dec : EqDecision Feedback.
Proof. solve_decision. Defined.

(** ** Helper functions *)

(** [initialize_data] on a fresh session. *)
Definition initialize_data : Session :=
  {| menu_items :=
       [ mkMenuItem 1 "Coffee" "Beverage" 50 true;
         mkMenuItem 2 "Tea" "Beverage" 40 true;
         mkMenuItem 3 "Sandwich" "Snack" 120 true;
         mkMenuItem 4 "Salad" "Meal" 150 true;
         mkMenuItem 5 "Pizza Slice" "Meal" 100 true;
         mkMenuItem 6 "Burger" "Meal" 180 false;
         mkMenuItem 7 "Fries" "Side" 70 true;
         mkMenuItem 8 "Juice" "Beverage" 60 true ];
     orders := [];
     order_id_counter := 1;
     cart := [] |}.

Definition get_available_menu (st : Session) : list MenuItem :=
  List.filter (fun r => Bool.eqb (item_available r) true) (menu_items st).

Definition calculate_total_savings (cart_df : list CartLine) : float :=
  let total_amount := Pd.sum (map line_subtotal cart_df) in
  if Py.gt_float_int total_amount 500 then
    (total_amount * 0.10)%float
  else if (3 <=? length cart_df)%nat then
    (total_amount * 0.05)%float
  else
    0%float.

Definition get_estimated_time (st : Session) : Z :=
  let base_time := 10 in
  let items_count := Py.sum (map line_quantity (cart st)) in
  base_time + items_count * 2.

(** The figures of the "Order Summary" block, computed from [cart_df]. *)
Record Summary := mkSummary {
  total_amount : float;
  discount : float;
  final_amount : float
}.

Definition order_summary (cart_df : list CartLine) : Summary :=
  let total_amount := Pd.sum (map line_subtotal cart_df) in
  let discount := calculate_total_savings cart_df in
  let final_amount := (total_amount - discount)%float in
  mkSummary total_amount discount final_amount.

(** ** Handlers *)

(** "Add to Cart" ([selected_item_name] and [quantity] are the values of the
    select box and of the number input). *)
Definition add_to_cart (selected_item_name : string) (quantity : Z)
    (st : Session) : Feedback * Session :=
  let available_menu_df := get_available_menu st in
  if Py.truthy selected_item_name then
    match Pd.iloc0 (List.filter
                      (fun r => String.eqb (item_name r) selected_item_name)
                      available_menu_df) with
    | Some item_details =>
        (Success,
         set_cart (cart st ++
                     [ {| line_item_id := item_id item_details;
                          line_name := selected_item_name;
                          line_price := item_price item_details;
                          line_quantity := quantity;
                          line_subtotal :=
                            Py.mul_float_int (item_price item_details) quantity |} ])
           st)
    | None => (IndexError, st)
    end
  else (Nothing, st).

(** The quantity input of row [idx] of [cart_df] returned [new_qty].  [item]
    is that row; a position without a row has no input. *)
Definition edit_quantity (idx : nat) (new_qty : Z) (st : Session)
    : Feedback * Session :=
  match cart st !! idx with
  | Some item =>
      if negb (new_qty =? line_quantity item) then
        (Rerun,
         set_cart
           (alter (fun d => {| line_item_id := line_item_id d;
                               line_name := line_name d;
                               line_price := line_price d;
                               line_quantity := new_qty;
                               line_subtotal :=
                                 Py.mul_int_float new_qty (line_price item) |})
              idx (cart st))
           st)
      else (Nothing, st)
  | None => (Nothing, st)
  end.

(** The remove button of row [idx]: [cart.pop(idx)]. *)
Definition remove_line (idx : nat) (st : Session) : Feedback * Session :=
  match cart st !! idx with
  | Some _ => (Rerun, set_cart (delete idx (cart st)) st)
  | None => (Nothing, st)
  end.

(** "Place Order".  [timestamp] is the formatted clock reading,
    [special_instructions] and [pickup_time] the order preferences;
    [cart_df] and [final_amount] were computed from the cart when the page
    was drawn. *)
Definition place_order (timestamp special_instructions pickup_time : string)
    (st : Session) : Feedback * Session :=
  let cart_df := cart st in
  let final_amount := final_amount (order_summary cart_df) in
  match cart st with
  | _ :: _ =>
      let order_id := order_id_counter st in
      let items_ordered := cart_df in
      let new_order :=
        {| order_id := order_id;
           order_timestamp := timestamp;
           order_items := items_ordered;
           order_total := final_amount;
           order_status := Pending;
           order_instructions := special_instructions;
           order_pickup := pickup_time |} in
      (Success,
       {| menu_items := menu_items st;
          orders := orders st ++ [new_order];
          order_id_counter := order_id_counter st + 1;
          cart := [] |})
  | [] => (EmptyCart, st)
  end.

(** [orders[orders['Order ID'] == oid].index]: the labels of the matching
    rows. *)
Fixpoint matching_index (oid : Z) (i : nat) (os : list Order) : list nat :=
  match os with
  | [] => []
  | o :: os' =>
      if order_id o =? oid then i :: matching_index oid (S i) os'
      else matching_index oid (S i) os'
  end.

(** [orders.loc[order_index, 'Status'] = new_status]. *)
Definition loc_set_status (order_index : list nat) (new_status : Status)
    (os : list Order) : list Order :=
  fold_left (fun df i => alter (set_status new_status) i df) order_index os.

(** "Update Status". *)
Definition update_status (selected_order_id_update : Z) (new_status : Status)
    (st : Session) : Feedback * Session :=
  let order_index := matching_index selected_order_id_update 0 (orders st) in
  match order_index with
  | _ :: _ =>
      (Success, set_orders (loc_set_status order_index new_status (orders st)) st)
  | [] => (OrderNotFound, st)
  end.

(** "Save Menu Changes" ([edited_df] is what the data editor returned). *)
Definition save_menu (edited_df : list MenuItem) (st : Session)
    : Feedback * Session :=
  if Pd.any (Pd.duplicated (map item_id edited_df)) then
    (DuplicateId, st)
  else
    (Success, set_menu_items edited_df st).

(** ** Sessions as runs of handlers *)

Inductive Event :=
| AddToCart (selected_item_name : string) (quantity : Z)
| EditQuantity (idx : nat) (new_qty : Z)
| RemoveLine (idx : nat)
| PlaceOrder (timestamp special_instructions pickup_time : string)
| UpdateStatus (selected_order_id_update : Z) (new_status : Status)
| SaveMenu (edited_df : list MenuItem).

Definition handle (ev : Event) (st : Session) : Feedback * Session :=
  match ev with
  | AddToCart name quantity => add_to_cart name quantity st
  | EditQuantity idx new_qty => edit_quantity idx new_qty st
  | RemoveLine idx => remove_line idx st
  | PlaceOrder ts instr pickup => place_order ts instr pickup st
  | UpdateStatus oid new_status => update_status oid new_status st
  | SaveMenu edited_df => save_menu edited_df st
  end.

(** The session after a sequence of events, oldest first. *)
Definition run (evs : list Event) (st : Session) : Session :=
  fold_left (fun s ev => snd (handle ev s)) evs st.

(** The sessions the script can be in. *)
Inductive reachable : Session -> Prop :=
| reachable_init : reachable initialize_data
| reachable_step st ev : reachable st -> reachable (snd (handle ev st)).

(** ** Notions used in the statements *)

(** The invariant of a cart line: 'Subtotal' is 'Price' times 'Quantity'. *)
Definition line_consistent (l : CartLine) : Prop :=
  line_subtotal l = Py.mul_float_int (line_price l) (line_quantity l).

(** The highest order id in the store, [0] for an empty store. *)
Definition highest_id (os : list Order) : Z :=
  foldr Z.max 0 (map order_id os).

(** The ids in the store are [1, 2, ...], in this order, and the counter is
    the next one. *)
Definition ids_sequential (st : Session) : Prop :=
  map order_id (orders st) = seqZ 1 (order_id_counter st - 1)
  /\ 1 <= order_id_counter st.

(** The row written by "Update Status" in place of [o]. *)
Definition with_status_of (oid : Z) (new_status : Status) (o : Order) : Order :=
  if order_id o =? oid then set_status new_status o else o.

(** The exact value of a binary64 number that is not NaN is above the
    integer [n]: the number is +infinity, or it is a zero and [n] is
    negative, or it is [(-1)^s * m * 2^e] and this rational is above [n]. *)
Definition exceeds (x : float) (n : Z) : bool :=
  match Prim2SF x with
  | S754_nan => false
  | S754_infinity s => negb s
  | S754_zero _ => n <? 0
  | S754_finite s m e =>
      let v := if s then Z.neg m else Z.pos m in
      if e <? 0 then n * 2 ^ (- e) <? v else n <? v * 2 ^ e
  end.

(** The binary64 number nearest to the amount of [c] hundredths: what an
    amount written with two decimals is as a [float]. *)
Definition float_of_cents (c : Z) : float :=
  (Py.float_of_int c / 100)%float.

(** The tiers as the specification words them, on decimal amounts: for a
    cart whose line subtotals are the amounts of [cents] hundredths, the
    tier is chosen by their sum, the subtotal, against 500.00. *)
Definition decimal_tiers (cents : list Z) (cart_df : list CartLine) : Prop :=
  map line_subtotal cart_df = map float_of_cents cents ->
  let s := order_summary cart_df in
  if 50000 <? foldr Z.add 0 cents then
    discount s = (total_amount s * 0.10)%float
  else if (3 <=? length cents)%nat then
    discount s = (total_amount s * 0.05)%float
  else
    discount s = 0%float.

(** ** Sample sessions and carts *)

(** Two coffees in the cart of a fresh session. *)
Definition coffee_cart : Session :=
  snd (add_to_cart "Coffee" 2 initialize_data).

(** Three lines of 100 each. *)
Definition three_lines : list CartLine :=
  [ mkCartLine 5 "Pizza Slice" 100 1 100;
    mkCartLine 1 "Coffee" 50 2 100;
    mkCartLine 5 "Pizza Slice" 100 1 100 ].

(** Two lines of 300 each. *)
Definition two_big_lines : list CartLine :=
  [ mkCartLine 4 "Salad" 150 2 300; mkCartLine 4 "Salad" 150 2 300 ].

(** Three lines of 200 each: both discount conditions hold. *)
Definition three_big_lines : list CartLine :=
  [ mkCartLine 5 "Pizza Slice" 100 2 200;
    mkCartLine 5 "Pizza Slice" 100 2 200;
    mkCartLine 5 "Pizza Slice" 100 2 200 ].

(** A session with one order in the store and a line in the cart. *)
Definition tea_after_coffee : Session :=
  run [ AddToCart "Coffee" 2;
        PlaceOrder "2024-01-01 12:00:00" "" "12:30:00";
        AddToCart "Tea" 1 ] initialize_data.

(** The order placed on the way to [tea_after_coffee]. *)
Definition coffee_order : Order :=
  mkOrder 1 "2024-01-01 12:00:00" [mkCartLine 1 "Coffee" 50 2 100] 100
    Pending "" "12:30:00".

(** Four lines of 10.10, 163.30, 163.30 and 163.30: 500.00 on the page. *)
Definition drift_cart : Session :=
  run [ SaveMenu [ mkMenuItem 1 "Cookie" "Snack" 10.10 true;
                   mkMenuItem 2 "Platter" "Meal" 163.30 true ];
        AddToCart "Cookie" 1; AddToCart "Platter" 1;
        AddToCart "Platter" 1; AddToCart "Platter" 1 ] initialize_data.

(** Eight lines that add up to 500.00. *)
Definition eight_lines : list CartLine :=
  [ mkCartLine 1 "A" 12.20 1 12.20;   mkCartLine 2 "B" 126.90 1 126.90;
    mkCartLine 3 "C" 20.05 1 20.05;   mkCartLine 4 "D" 86.52 1 86.52;
    mkCartLine 5 "E" 103.63 1 103.63; mkCartLine 6 "F" 43.60 1 43.60;
    mkCartLine 7 "G" 86.29 1 86.29;   mkCartLine 8 "H" 20.81 1 20.81 ].

(** A catalog with two available rows named "Coffee". *)
Definition two_coffees : Session :=
  snd (save_menu [ mkMenuItem 1 "Coffee" "Beverage" 50 true;
                   mkMenuItem 2 "Tea" "Beverage" 40 true;
                   mkMenuItem 9 "Coffee" "Beverage" 75 true ] initialize_data).

(** ** Session start *)

(** [st.session_state] as the script finds it: a key is there or not. *)
Record SessionState := mkSessionState {
  ss_menu_items : option (list MenuItem);
  ss_orders : option (list Order);
  ss_order_id_counter : option Z;
  ss_cart : option (list CartLine)
}.

(** [initialize_data()] on any session state: each of the four keys is set
    only when it is not in the session state; the values written are those of
    [initialize_data] above. *)
Definition initialize_data_in (ss : SessionState) : SessionState :=
  {| ss_menu_items :=
       match ss_menu_items ss with
       | None => Some (menu_items initialize_data)
       | Some m => Some m
       end;
     ss_orders :=
       match ss_orders ss with
       | None => Some (orders initialize_data)
       | Some os => Some os
       end;
     ss_order_id_counter :=
       match ss_order_id_counter ss with
       | None => Some (order_id_counter initialize_data)
       | Some n => Some n
       end;
     ss_cart :=
       match ss_cart ss with
       | None => Some (cart initialize_data)
       | Some c => Some c
       end |}.

(** The session state of a script run that has been initialised before. *)
Definition state_of (st : Session) : SessionState :=
  mkSessionState (Some (menu_items st)) (Some (orders st))
    (Some (order_id_counter st)) (Some (cart st)).

(** ** What the pages offer *)

(** The options of the "Select Item" box: [available_menu_df['Name']]. *)
Definition select_item_options (st : Session) : list string :=
  map item_name (get_available_menu st).

(** The options of the "Select Order ID to Update" box:
    [orders['Order ID'].tolist()]. *)
Definition order_ids (st : Session) : list Z :=
  map order_id (orders st).

(** The events the pages drawn for [st] can deliver.  The order form and the
    cart are drawn only when some item is available; the item is one of the
    options of its select box; both quantity inputs have [min_value=1]; there
    is a quantity input and a remove button per row of the cart; "Place
    Order" is drawn below a cart that is not empty; the order to update is
    one of the options of its select box; the menu editor returns any
    frame. *)
Definition offered (st : Session) (ev : Event) : Prop :=
  match ev with
  | AddToCart name quantity =>
      get_available_menu st <> [] /\ name ∈ select_item_options st
      /\ 1 <= quantity
  | EditQuantity idx new_qty =>
      get_available_menu st <> [] /\ (idx < length (cart st))%nat
      /\ 1 <= new_qty
  | RemoveLine idx =>
      get_available_menu st <> [] /\ (idx < length (cart st))%nat
  | PlaceOrder _ _ _ =>
      get_available_menu st <> [] /\ cart st <> []
  | UpdateStatus oid _ =>
      orders st <> [] /\ oid ∈ order_ids st
  | SaveMenu _ => True
  end.

(** The sessions reached through the pages. *)
Inductive ui_reachable : Session -> Prop :=
| ui_reachable_init : ui_reachable initialize_data
| ui_reachable_step st ev :
    ui_reachable st -> offered st ev -> ui_reachable (snd (handle ev st)).

(** An order whose total is the final amount of its own items, which are
    lines with consistent subtotals, at least one. *)
Definition order_priced (o : Order) : Prop :=
  order_items o <> []
  /\ order_total o = final_amount (order_summary (order_items o))
  /\ Forall line_consistent (order_items o).

(** The quantities of a cart are at least one. *)
Definition quantities_positive (c : list CartLine) : Prop :=
  Forall (fun l => 1 <= line_quantity l) c.

(** A session with two orders in the store and an empty cart. *)
Definition two_orders : Session :=
  run [ PlaceOrder "2024-01-01 12:05:00" "no sugar" "12:40:00" ]
    tea_after_coffee.

(** * Properties *)

(** ** The scenarios of the specification, run on the embedding *)

Example scenario_two_coffees :
  order_summary (cart coffee_cart) = mkSummary 100 0 100
  /\ get_estimated_time coffee_cart = 14.
Proof. split; vm_compute; reflexivity. Qed.

Example scenario_three_lines :
  order_summary three_lines = mkSummary 300 15 285.
Proof. vm_compute; reflexivity. Qed.

Example scenario_two_lines_600 :
  order_summary two_big_lines = mkSummary 600 60 540.
Proof. vm_compute; reflexivity. Qed.

Example scenario_tiers_do_not_stack :
  order_summary three_big_lines = mkSummary 600 60 540.
Proof. vm_compute; reflexivity. Qed.

(** ** Pricing *)


(** [sum] with its accumulator, against the recursive sum. *)
Lemma fold_left_add_foldr (xs : list Z) (a : Z) :
  fold_left Z.add xs a = a + foldr Z.add 0 xs.
Proof.
  revert a. induction xs as [|x xs IH]; intros a; cbn.
  - lia.
  - rewrite IH. lia.
Qed.

(** C8: for every cart, the empty one included, the estimated preparation
    time is 10 plus 2 times the sum of the quantities of all lines; the empty
    cart gives 10. *)
Theorem estimated_time_formula (st : Session) :
  get_estimated_time st = 10 + 2 * foldr Z.add 0 (map line_quantity (cart st))
  /\ (cart st = [] -> get_estimated_time st = 10).
Proof.
  unfold get_estimated_time, Py.sum. rewrite fold_left_add_foldr. split.
  - lia.
  - intros ->. reflexivity.
Qed.

(** ** Cart lines *)

(** Binary64 multiplication commutes, so [n * x] and [x * n] agree. *)
Lemma float_mul_comm (x y : float) : (x * y)%float = (y * x)%float.
Proof.
  rewrite <- (SF2Prim_Prim2SF (x * y)), <- (SF2Prim_Prim2SF (y * x)).
  rewrite !mul_spec. f_equal.
  destruct (Prim2SF x) as [sx| sx| |sx mx ex],
           (Prim2SF y) as [sy| sy| |sy my ey];
    cbn; rewrite ?(xorb_comm sx), ?(Pos.mul_comm mx), ?(Z.add_comm ex);
    reflexivity.
Qed.

Lemma mul_int_float_comm (n : Z) (x : float) :
  Py.mul_int_float n x = Py.mul_float_int x n.
Proof. apply float_mul_comm. Qed.

(** What "Add to Cart" does when it gets to the [append]. *)
Lemma add_to_cart_success name quantity st st' :
  add_to_cart name quantity st = (Success, st') ->
  exists item_details,
    Pd.iloc0 (List.filter (fun r => String.eqb (item_name r) name)
                (get_available_menu st)) = Some item_details
    /\ st' = set_cart (cart st ++
               [ mkCartLine (item_id item_details) name
                   (item_price item_details) quantity
                   (Py.mul_float_int (item_price item_details) quantity) ]) st.
Proof.
  unfold add_to_cart. destruct (Py.truthy name); [|discriminate].
  destruct (Pd.iloc0 _) as [item_details|]; [|discriminate].
  intros [= <-]. eauto.
Qed.

(** What a quantity edit does when it changes the cart. *)
Lemma edit_quantity_rerun idx new_qty st st' :
  edit_quantity idx new_qty st = (Rerun, st') ->
  exists item,
    cart st !! idx = Some item
    /\ new_qty <> line_quantity item
    /\ st' = set_cart
               (<[idx := mkCartLine (line_item_id item) (line_name item)
                           (line_price item) new_qty
                           (Py.mul_int_float new_qty (line_price item))]>
                  (cart st)) st.
Proof.
  unfold edit_quantity. destruct (cart st !! idx) as [item|] eqn:Hitem; [|discriminate].
  destruct (new_qty =? line_quantity item) eqn:Hq; cbn; [discriminate|].
  intros [= <-]. exists item. split; [reflexivity|]. split; [lia|].
  f_equal. apply list_eq. intros j.
  destruct (decide (idx = j)) as [<-|Hne].
  - rewrite list_lookup_alter_eq, list_lookup_insert_eq by eauto using lookup_lt_Some.
    rewrite Hitem. reflexivity.
  - rewrite list_lookup_alter_ne, list_lookup_insert_ne by done. reflexivity.
Qed.

(** Any other outcome of a quantity edit leaves the session as it was. *)
Lemma edit_quantity_other idx new_qty st fb st' :
  edit_quantity idx new_qty st = (fb, st') -> fb <> Rerun -> st' = st.
Proof.
  unfold edit_quantity. destruct (cart st !! idx); [|congruence].
  destruct (negb _); congruence.
Qed.

Lemma cart_consistent_step ev st :
  Forall line_consistent (cart st) ->
  Forall line_consistent (cart (snd (handle ev st))).
Proof.
  intros Hinv. destruct ev as [name q|idx q|idx|ts instr pk|oid s|edited]; cbn [handle].
  - destruct (add_to_cart name q st) as [fb st'] eqn:Hadd.
    destruct (decide (fb = Success)) as [->|Hfb].
    + apply add_to_cart_success in Hadd as (item & _ & ->). cbn.
      apply Forall_app. split; [done|]. repeat constructor.
    + revert Hadd. unfold add_to_cart.
      destruct (Py.truthy name); [destruct (Pd.iloc0 _)|]; intros [= <- <-]; done.
  - destruct (edit_quantity idx q st) as [fb st'] eqn:Hed.
    destruct (decide (fb = Rerun)) as [->|Hfb].
    + apply edit_quantity_rerun in Hed as (item & Hitem & _ & ->). cbn.
      apply Forall_insert; [done|].
      unfold line_consistent; cbn. apply mul_int_float_comm.
    + apply edit_quantity_other in Hed as ->; done.
  - unfold remove_line. destruct (cart st !! idx); cbn; [|done].
    by apply Forall_delete.
  - unfold place_order. destruct (cart st) eqn:Hcart; cbn; [by rewrite Hcart|constructor].
  - unfold update_status. destruct (matching_index _ _ _); cbn; done.
  - unfold save_menu. destruct (Pd.any _); cbn; done.
Qed.

Lemma cart_consistent_reachable st :
  reachable st -> Forall line_consistent (cart st).
Proof.
  induction 1 as [|st ev _ IH].
  - constructor.
  - by apply cart_consistent_step.
Qed.

(** C6: a cart line satisfies subtotal = unit price * quantity right after it
    is added and right after a quantity edit, hence every line of every cart
    the script can hold does; and a quantity edit changes nothing but the
    quantity and the subtotal of the edited line (nothing at all when the
    quantity entered is the one the line has). *)
Theorem cart_line_subtotal_invariant :
  (forall name quantity st st',
      add_to_cart name quantity st = (Success, st') ->
      exists l, cart st' = (cart st ++ [l])%list
                /\ line_quantity l = quantity /\ line_consistent l)
  /\ (forall idx new_qty st st',
      edit_quantity idx new_qty st = (Rerun, st') ->
      exists item l,
        cart st !! idx = Some item
        /\ l = mkCartLine (line_item_id item) (line_name item) (line_price item)
                 new_qty (Py.mul_float_int (line_price item) new_qty)
        /\ line_consistent l
        /\ st' = set_cart (<[idx := l]> (cart st)) st)
  /\ (forall idx new_qty st fb st',
      edit_quantity idx new_qty st = (fb, st') -> fb <> Rerun -> st' = st)
  /\ (forall st, reachable st -> Forall line_consistent (cart st)).
Proof.
  split; [|split; [|split; [exact edit_quantity_other|]]].
  - intros name q st st' Hadd.
    apply add_to_cart_success in Hadd as (item & _ & ->).
    eexists. cbn. split; [reflexivity|]. split; reflexivity.
  - intros idx q st st' Hed.
    apply edit_quantity_rerun in Hed as (item & Hitem & _ & ->).
    exists item. eexists. split; [done|]. split; [reflexivity|].
    split; [reflexivity|]. by rewrite mul_int_float_comm.
  - apply cart_consistent_reachable.
Qed.

(** ** Menu catalog *)

Lemma existsb_eqb_false (x : Z) (seen : list Z) :
  existsb (Z.eqb x) seen = false <-> x ∉ seen.
Proof.
  induction seen as [|y seen IH]; cbn.
  - split; [intros _; apply not_elem_of_nil|done].
  - rewrite orb_false_iff, IH, not_elem_of_cons, Z.eqb_neq. tauto.
Qed.

(** No row is marked as a duplicate exactly when the column has no repeated
    value and shares none with the rows seen before. *)
Lemma duplicated_from_none (seen col : list Z) :
  Pd.any (Pd.duplicated_from seen col) = false
  <-> NoDup col /\ (forall x, x ∈ col -> x ∉ seen).
Proof.
  revert seen. induction col as [|x col IH]; intros seen; cbn.
  - split; [|done]. intros _. split; [constructor|].
    intros x Hx. by apply elem_of_nil in Hx.
  - fold (Pd.any (Pd.duplicated_from (x :: seen) col)).
    rewrite orb_false_iff, existsb_eqb_false, IH, NoDup_cons. split.
    + intros (Hx & Hnd & Hcol). split; [split; [|done]|].
      * intros Hin. apply (Hcol x Hin). left.
      * intros y [->|Hy]%elem_of_cons; [done|].
        intros Hs. apply (Hcol y Hy). by right.
    + intros ((Hx & Hnd) & Hall). split; [apply Hall; left|]. split; [done|].
      intros y Hy [->|Hs]%elem_of_cons; [done|].
      apply (Hall y); [by right|done].
Qed.

Lemma duplicated_any_false (col : list Z) :
  Pd.any (Pd.duplicated col) = false <-> NoDup col.
Proof.
  unfold Pd.duplicated. rewrite duplicated_from_none. split; [tauto|].
  intros Hnd. split; [done|]. intros x _. apply not_elem_of_nil.
Qed.

(** C4: saving an edited menu in which some item id occurs twice reports
    DuplicateId and leaves the session, the catalog with it, as it was;
    saving one without a repeated id replaces the whole catalog by the edited
    list, whatever its names, prices, categories and flags are. *)
Theorem save_menu_duplicate_check (edited_df : list MenuItem) (st : Session) :
  (~ NoDup (map item_id edited_df) ->
   save_menu edited_df st = (DuplicateId, st))
  /\ (NoDup (map item_id edited_df) ->
      save_menu edited_df st = (Success, set_menu_items edited_df st)
      /\ menu_items (snd (save_menu edited_df st)) = edited_df
      /\ orders (snd (save_menu edited_df st)) = orders st
      /\ order_id_counter (snd (save_menu edited_df st)) = order_id_counter st
      /\ cart (snd (save_menu edited_df st)) = cart st).
Proof.
  unfold save_menu.
  destruct (Pd.any (Pd.duplicated (map item_id edited_df))) eqn:Hdup; split.
  - reflexivity.
  - intros Hnd%duplicated_any_false. congruence.
  - intros Hnd. exfalso. by apply Hnd, duplicated_any_false.
  - intros _. repeat split.
Qed.

(** A menu with a negative price, an empty name and an unknown category is
    saved: only the ids are looked at. *)
Example save_menu_no_other_validation :
  save_menu [mkMenuItem 1 "" "Dessert" (-5) true] initialize_data
  = (Success, set_menu_items [mkMenuItem 1 "" "Dessert" (-5) true] initialize_data).
Proof. reflexivity. Qed.

Example save_menu_rejects_duplicate :
  save_menu [mkMenuItem 1 "Coffee" "Beverage" 50 true;
             mkMenuItem 2 "Tea" "Beverage" 40 true;
             mkMenuItem 1 "Mocha" "Beverage" 80 true] initialize_data
  = (DuplicateId, initialize_data).
Proof. reflexivity. Qed.

(** Only "Save Menu Changes" writes the catalog. *)
Lemma menu_items_step ev st :
  menu_items (snd (handle ev st)) <> menu_items st ->
  exists edited_df, ev = SaveMenu edited_df.
Proof.
  destruct ev as [name q|idx q|idx|ts instr pk|oid s|edited]; cbn [handle];
    [| | | | |eauto]; intros Hne; exfalso; apply Hne.
  - unfold add_to_cart.
    destruct (Py.truthy name); [destruct (Pd.iloc0 _)|]; reflexivity.
  - unfold edit_quantity.
    destruct (cart st !! idx); [destruct (negb _)|]; reflexivity.
  - unfold remove_line. destruct (cart st !! idx); reflexivity.
  - unfold place_order. destruct (cart st); reflexivity.
  - unfold update_status. destruct (matching_index _ _ _); reflexivity.
Qed.

Lemma save_menu_cart edited_df st :
  cart (snd (save_menu edited_df st)) = cart st.
Proof. unfold save_menu. destruct (Pd.any _); reflexivity. Qed.

(** C9: cart lines are snapshots.  The catalog is written by the menu save
    only, and a menu save (a price change, an availability change, a whole
    new catalog) leaves every cart line as it was; a later quantity edit
    reads nothing of the catalog, and the subtotal it writes is the new
    quantity times the unit price stored in the line. *)
Theorem cart_lines_are_snapshots :
  (forall ev st, menu_items (snd (handle ev st)) <> menu_items st ->
                 exists edited_df, ev = SaveMenu edited_df)
  /\ (forall edits st,
        cart (run (map SaveMenu edits) st) = cart st)
  /\ (forall catalog idx new_qty st,
        cart (snd (edit_quantity idx new_qty (set_menu_items catalog st)))
        = cart (snd (edit_quantity idx new_qty st)))
  /\ (forall idx new_qty st l,
        cart st !! idx = Some l -> new_qty <> line_quantity l ->
        cart (snd (edit_quantity idx new_qty st))
        = <[idx := mkCartLine (line_item_id l) (line_name l) (line_price l)
                     new_qty (Py.mul_int_float new_qty (line_price l))]>
            (cart st)).
Proof.
  split; [exact menu_items_step|]. split; [|split].
  - intros edits. induction edits as [|e edits IH]; intros st; [reflexivity|].
    cbn. unfold run in IH. rewrite IH. apply save_menu_cart.
  - intros catalog idx q st. unfold edit_quantity. cbn [cart set_menu_items].
    destruct (cart st !! idx); [destruct (negb _)|]; reflexivity.
  - intros idx q st l Hl Hq.
    destruct (edit_quantity idx q st) as [fb st'] eqn:Hed.
    destruct (decide (fb = Rerun)) as [->|Hfb].
    + apply edit_quantity_rerun in Hed as (item & Hitem & _ & ->).
      cbn. congruence.
    + exfalso. revert Hed. unfold edit_quantity. rewrite Hl.
      destruct (q =? line_quantity l) eqn:Heq; [lia|]. cbn. congruence.
Qed.

(** ** Order store *)

Lemma loc_set_status_matching oid new_status (pre os : list Order) :
  loc_set_status (matching_index oid (length pre) os) new_status (pre ++ os)
  = (pre ++ map (with_status_of oid new_status) os)%list.
Proof.
  unfold loc_set_status. revert pre.
  induction os as [|o os IH]; intros pre; cbn [matching_index map].
  - reflexivity.
  - specialize (IH (pre ++ [o])%list) as IHskip.
    specialize (IH (pre ++ [set_status new_status o])%list) as IHset.
    rewrite length_app, Nat.add_1_r, <- !app_assoc in IHskip, IHset.
    unfold with_status_of at 1.
    destruct (order_id o =? oid); cbn [fold_left].
    + replace (length pre) with (length pre + 0)%nat at 2 by lia.
      rewrite alter_app_r. exact IHset.
    + exact IHskip.
Qed.

Lemma matching_index_nil oid i (os : list Order) :
  matching_index oid i os = [] <-> Forall (fun o => order_id o <> oid) os.
Proof.
  revert i. induction os as [|o os IH]; intros i; cbn.
  - split; [constructor|done].
  - rewrite Forall_cons, <- (IH (S i)).
    destruct (order_id o =? oid) eqn:Heq; [|split; [split; [lia|done]|tauto]].
    split; [discriminate|]. intros [Hne _]. lia.
Qed.

(** "Update Status", by cases on whether some row has the selected id. *)
Lemma update_status_cases oid new_status st :
  (Forall (fun o => order_id o <> oid) (orders st)
   /\ update_status oid new_status st = (OrderNotFound, st))
  \/ (Exists (fun o => order_id o = oid) (orders st)
      /\ update_status oid new_status st
         = (Success,
            set_orders (map (with_status_of oid new_status) (orders st)) st)).
Proof.
  unfold update_status.
  pose proof (loc_set_status_matching oid new_status [] (orders st)) as Hloc.
  cbn in Hloc. rewrite Hloc.
  destruct (matching_index oid 0 (orders st)) eqn:Hidx.
  - left. split; [|reflexivity]. by apply (matching_index_nil oid 0).
  - right. split; [|reflexivity].
    assert (~ Forall (fun o => order_id o <> oid) (orders st)) as HnF
      by (rewrite <- (matching_index_nil oid 0), Hidx; discriminate).
    apply not_Forall_Exists in HnF; [|intros o; apply _].
    eapply Exists_impl; [exact HnF|]. cbn. intros o Hnn. lia.
Qed.

(** C5: a status update for an id that no order in the store has reports
    OrderNotFound and leaves the session, the order store with it, as it was;
    for an id in the store it succeeds and writes the new status over the old
    one, whatever the two are, in the rows with that id. *)
Theorem update_status_behaviour (oid : Z) (new_status : Status) (st : Session) :
  ((forall o, o ∈ orders st -> order_id o <> oid) ->
   update_status oid new_status st = (OrderNotFound, st))
  /\ ((exists o, o ∈ orders st /\ order_id o = oid) ->
      update_status oid new_status st
      = (Success, set_orders (map (with_status_of oid new_status) (orders st)) st)
      /\ forall i o, orders st !! i = Some o -> order_id o = oid ->
           exists o', orders (snd (update_status oid new_status st)) !! i = Some o'
                      /\ order_status o' = new_status).
Proof.
  destruct (update_status_cases oid new_status st) as [[Hnone Hup]|[Hsome Hup]].
  - split; [done|]. intros (o & Ho & Hid).
    rewrite Forall_forall in Hnone. by destruct (Hnone o Ho).
  - split.
    + intros Hnone. apply Exists_exists in Hsome as (o & Ho & Hid).
      by destruct (Hnone o Ho).
    + intros _. split; [done|]. intros i o Ho Hid. rewrite Hup. cbn.
      exists (with_status_of oid new_status o).
      rewrite list_lookup_fmap, Ho. split; [reflexivity|].
      unfold with_status_of. by rewrite (proj2 (Z.eqb_eq _ _) Hid).
Qed.

Example update_status_unknown_order :
  update_status 7 Ready initialize_data = (OrderNotFound, initialize_data).
Proof. reflexivity. Qed.

(** C3: placing an order with an empty cart reports EmptyCart and changes
    nothing: the order store, the id counter, the cart and the catalog are
    the ones from before. *)
Theorem place_order_empty_cart (ts instr pk : string) (st : Session) :
  cart st = [] ->
  place_order ts instr pk st = (EmptyCart, st).
Proof. unfold place_order. by intros ->. Qed.

Lemma place_order_empty_cart_witness :
  cart initialize_data = []
  /\ place_order "2024-01-01 12:00:00" "" "12:30:00" initialize_data
     = (EmptyCart, initialize_data).
Proof.
  split; [reflexivity|]. apply (place_order_empty_cart _ _ _ initialize_data).
  reflexivity.
Defined.

Lemma foldr_max_snoc (l : list Z) (x : Z) :
  foldr Z.max 0 (l ++ [x]) = Z.max (foldr Z.max 0 l) (Z.max x 0).
Proof. induction l as [|y l IH]; cbn; [|rewrite IH]; lia. Qed.

Lemma highest_seqZ (n : nat) : foldr Z.max 0 (seqZ 1 (Z.of_nat n)) = Z.of_nat n.
Proof.
  induction n as [|n IH]; [reflexivity|].
  rewrite seqZ_S, foldr_max_snoc, IH. lia.
Qed.

Lemma seqZ_one (m : Z) : seqZ m 1 = [m].
Proof. unfold seqZ. cbn. f_equal. Qed.

Lemma ids_sequential_highest st :
  ids_sequential st -> highest_id (orders st) = order_id_counter st - 1.
Proof.
  intros [Hids Hpos]. unfold highest_id. rewrite Hids.
  rewrite <- (Z2Nat.id (order_id_counter st - 1)) by lia. apply highest_seqZ.
Qed.

Lemma map_order_id_with_status oid new_status (os : list Order) :
  map order_id (map (with_status_of oid new_status) os) = map order_id os.
Proof.
  rewrite map_map. apply map_ext. intros o. unfold with_status_of.
  by destruct (order_id o =? oid).
Qed.

Lemma ids_sequential_step ev st :
  ids_sequential st -> ids_sequential (snd (handle ev st)).
Proof.
  intros [Hids Hpos].
  destruct ev as [name q|idx q|idx|ts instr pk|oid s|edited]; cbn [handle].
  - unfold add_to_cart.
    destruct (Py.truthy name); [destruct (Pd.iloc0 _)|]; by split.
  - unfold edit_quantity.
    destruct (cart st !! idx); [destruct (negb _)|]; by split.
  - unfold remove_line. destruct (cart st !! idx); by split.
  - unfold place_order. destruct (cart st); [by split|].
    split; cbn; [|lia].
    rewrite map_app, Hids. cbn.
    replace (order_id_counter st + 1 - 1)
      with (order_id_counter st - 1 + 1) by lia.
    rewrite seqZ_app by lia. rewrite seqZ_one.
    do 2 f_equal. lia.
  - destruct (update_status_cases oid s st) as [[_ ->]|[_ ->]]; [by split|].
    split; [|done]. cbn. by rewrite map_order_id_with_status.
  - unfold save_menu. destruct (Pd.any _); by split.
Qed.

Lemma ids_sequential_reachable st : reachable st -> ids_sequential st.
Proof.
  induction 1 as [|st ev _ IH].
  - split; [reflexivity|]. cbn. lia.
  - by apply ids_sequential_step.
Qed.

(** C2: in a session the script can be in, placing an order with a cart that
    is not empty succeeds, appends exactly one order to the store and empties
    the cart.  The id of the new order is the highest id in the store so far
    plus one ([1] when the store was empty), above every id assigned before;
    its status is Pending. *)
Theorem place_order_assigns_next_id (ts instr pk : string) (st : Session) :
  reachable st -> cart st <> [] ->
  exists o,
    place_order ts instr pk st
    = (Success,
       mkSession (menu_items st) (orders st ++ [o]) (order_id o + 1) [])
    /\ cart (snd (place_order ts instr pk st)) = []
    /\ order_id o = highest_id (orders st) + 1
    /\ (orders st = [] -> order_id o = 1)
    /\ (forall o', o' ∈ orders st -> 1 <= order_id o' < order_id o)
    /\ map order_id (orders st ++ [o])
       = seqZ 1 (Z.of_nat (length (orders st)) + 1)
    /\ order_status o = Pending
    /\ order_items o = cart st
    /\ order_total o = final_amount (order_summary (cart st)).
Proof.
  intros Hreach Hcart.
  pose proof (ids_sequential_reachable st Hreach) as Hseq.
  pose proof (ids_sequential_highest st Hseq) as Hhigh.
  pose proof (ids_sequential_step (PlaceOrder ts instr pk) st Hseq) as [Hids' _].
  destruct Hseq as [Hids Hpos]. revert Hids'.
  cbn [handle].
  set (o := mkOrder (order_id_counter st) ts (cart st)
              (final_amount (order_summary (cart st))) Pending instr pk).
  assert (place_order ts instr pk st
          = (Success,
             mkSession (menu_items st) (orders st ++ [o]) (order_id o + 1) []))
    as Hplace by (unfold place_order; destruct (cart st); done).
  rewrite Hplace. cbn [snd orders order_id_counter cart]. intros Hids'.
  exists o. split; [reflexivity|].
  split; [reflexivity|]. split; [cbn; lia|]. split; [|split; [|split]].
  - intros Hempty. rewrite Hempty in Hhigh. cbn in *. lia.
  - intros o' Ho'.
    assert (order_id o' ∈ seqZ 1 (order_id_counter st - 1)) as Hin
      by (rewrite <- Hids; by apply list_elem_of_fmap_2).
    apply elem_of_seqZ in Hin. cbn. lia.
  - rewrite Hids'. f_equal.
    apply (f_equal length) in Hids. rewrite length_map, length_seqZ in Hids.
    cbn. lia.
  - done.
Qed.

Lemma reachable_run evs st : reachable st -> reachable (run evs st).
Proof.
  revert st. induction evs as [|ev evs IH]; intros st Hst; [done|].
  apply IH. by constructor.
Qed.

Lemma place_order_assigns_next_id_witness :
  reachable tea_after_coffee
  /\ cart tea_after_coffee <> []
  /\ exists o,
       orders (snd (place_order "2024-01-01 12:05:00" "no sugar" "12:40:00"
                      tea_after_coffee))
       = (orders tea_after_coffee ++ [o])%list
       /\ order_id o = 2 /\ order_status o = Pending.
Proof.
  assert (reachable tea_after_coffee) as Hreach
    by (apply reachable_run; constructor).
  assert (cart tea_after_coffee <> []) as Hcart by (vm_compute; discriminate).
  split; [exact Hreach|]. split; [exact Hcart|].
  destruct (place_order_assigns_next_id "2024-01-01 12:05:00" "no sugar"
              "12:40:00" tea_after_coffee Hreach Hcart)
    as (o & Hplace & _ & Hid & _ & _ & _ & Hstatus & _).
  exists o. rewrite Hplace. split; [reflexivity|]. split; [|exact Hstatus].
  rewrite Hid. reflexivity.
Defined.

(** One event keeps every order of the store in its row, and changes nothing
    of it unless it is a status update for its id, which changes the status
    only. *)
Lemma orders_step ev st i o :
  orders st !! i = Some o ->
  exists o',
    orders (snd (handle ev st)) !! i = Some o'
    /\ o' = set_status (order_status o') o
    /\ ((forall s, ev <> UpdateStatus (order_id o) s) -> o' = o).
Proof.
  intros Ho.
  assert (o = set_status (order_status o) o) as Hsame by (by destruct o).
  destruct ev as [name q|idx q|idx|ts instr pk|oid s|edited]; cbn [handle].
  - exists o. unfold add_to_cart.
    destruct (Py.truthy name); [destruct (Pd.iloc0 _)|]; done.
  - exists o. unfold edit_quantity.
    destruct (cart st !! idx); [destruct (negb _)|]; done.
  - exists o. unfold remove_line. destruct (cart st !! idx); done.
  - exists o. unfold place_order. destruct (cart st); [done|].
    cbn. split; [|done]. by apply lookup_app_l_Some.
  - destruct (update_status_cases oid s st) as [[_ ->]|[_ ->]];
      [by exists o|].
    exists (with_status_of oid s o). cbn.
    rewrite list_lookup_fmap, Ho. split; [reflexivity|].
    unfold with_status_of. destruct (order_id o =? oid) eqn:Hid.
    + split; [reflexivity|]. intros Hev. apply Z.eqb_eq in Hid as <-.
      by destruct (Hev s).
    + done.
  - exists o. unfold save_menu. destruct (Pd.any _); done.
Qed.

(** C7: an order in the store stays in its row through every sequence of
    events, with the id, time stamp, line items, total amount, instructions
    and pickup time it was created with; it is the very same order as long as
    no status update for its id is among the events.  So the status is the
    only field written after creation, by the status update only, and a
    status update leaves the orders with other ids untouched. *)
Theorem orders_frozen_after_creation (evs : list Event) (st : Session)
    (i : nat) (o : Order) :
  orders st !! i = Some o ->
  exists o',
    orders (run evs st) !! i = Some o'
    /\ order_id o' = order_id o
    /\ order_timestamp o' = order_timestamp o
    /\ order_items o' = order_items o
    /\ order_total o' = order_total o
    /\ order_instructions o' = order_instructions o
    /\ order_pickup o' = order_pickup o
    /\ ((forall s, UpdateStatus (order_id o) s ∉ evs) -> o' = o).
Proof.
  intros Ho.
  enough (exists o', orders (run evs st) !! i = Some o'
                     /\ o' = set_status (order_status o') o
                     /\ ((forall s, UpdateStatus (order_id o) s ∉ evs) -> o' = o))
    as Hgen.
  { destruct Hgen as (o' & Ho' & Hfields & Hsame).
    exists o'. split; [done|].
    repeat split; [rewrite Hfields; reflexivity ..|exact Hsame]. }
  revert st o Ho. induction evs as [|ev evs IH]; intros st o Ho.
  - exists o. split; [done|]. split; [by destruct o|done].
  - destruct (orders_step ev st i o Ho) as (o1 & Ho1 & Hf1 & Hsame1).
    destruct (IH _ _ Ho1) as (o' & Ho' & Hf' & Hsame').
    exists o'. split; [exact Ho'|]. split.
    + rewrite Hf', Hf1. reflexivity.
    + intros Hnone.
      assert (o1 = o) as ->.
      { apply Hsame1. intros s ->. apply (Hnone s). left. }
      apply Hsame'. intros s Hin. apply (Hnone s). by right.
Qed.

Lemma orders_frozen_after_creation_witness :
  orders tea_after_coffee !! 0%nat = Some coffee_order
  /\ exists o',
       orders (run [ UpdateStatus 1 Ready;
                     SaveMenu [mkMenuItem 1 "Coffee" "Beverage" 65 true];
                     EditQuantity 0 4;
                     PlaceOrder "2024-01-01 12:05:00" "" "12:40:00" ]
                 tea_after_coffee) !! 0%nat = Some o'
       /\ order_items o' = [mkCartLine 1 "Coffee" 50 2 100]
       /\ order_total o' = 100%float.
Proof.
  assert (orders tea_after_coffee !! 0%nat = Some coffee_order) as Ho
    by (vm_compute; reflexivity).
  split; [exact Ho|].
  destruct (orders_frozen_after_creation
              [ UpdateStatus 1 Ready;
                SaveMenu [mkMenuItem 1 "Coffee" "Beverage" 65 true];
                EditQuantity 0 4;
                PlaceOrder "2024-01-01 12:05:00" "" "12:40:00" ]
              tea_after_coffee 0%nat coffee_order Ho)
    as (o' & Ho' & _ & _ & Hitems & Htotal & _).
  exists o'. split; [exact Ho'|]. split; [exact Hitems|exact Htotal].
Defined.

(** ** Adding to the cart *)

Lemma filter_filter_andb {A} (p q : A -> bool) (l : list A) :
  List.filter q (List.filter p l) = List.filter (fun x => p x && q x) l.
Proof.
  induction l as [|a l IH]; [reflexivity|]. cbn.
  destruct (p a); cbn; [destruct (q a)|]; by rewrite IH.
Qed.

(** The first row of a selection is the first row of the frame that
    satisfies the condition. *)
Lemma iloc0_filter_first {A} (p : A -> bool) (l : list A) (x : A) :
  Pd.iloc0 (List.filter p l) = Some x ->
  exists k, l !! k = Some x /\ p x = true
            /\ forall k' y, (k' < k)%nat -> l !! k' = Some y -> p y = false.
Proof.
  unfold Pd.iloc0. induction l as [|a l IH]; cbn; [discriminate|].
  destruct (p a) eqn:Hpa; cbn.
  - intros [= <-]. exists 0%nat. repeat split; [done|]. intros k' y Hlt. lia.
  - intros (k & Hk & Hpx & Hfirst)%IH. exists (S k). repeat split; [done..|].
    intros [|k'] y Hlt; cbn.
    + by intros [= <-].
    + apply Hfirst. lia.
Qed.

(** C10: "Add to Cart" looks the selected item up by its name among the
    available rows and snapshots the first such row in catalog order.  Hence
    of two available rows with the same name, the later one is never the row
    that is added, whatever is selected. *)
Theorem add_to_cart_first_match_by_name (name : string) (quantity : Z)
    (st st' : Session) :
  add_to_cart name quantity st = (Success, st') ->
  exists k row,
    menu_items st !! k = Some row
    /\ item_available row = true
    /\ item_name row = name
    /\ (forall k' row', (k' < k)%nat -> menu_items st !! k' = Some row' ->
          item_available row' = true -> item_name row' <> name)
    /\ st' = set_cart
               (cart st ++
                  [ mkCartLine (item_id row) name (item_price row) quantity
                      (Py.mul_float_int (item_price row) quantity) ]) st
    /\ (forall i j a b, (i < j)%nat ->
          menu_items st !! i = Some a -> menu_items st !! j = Some b ->
          item_available a = true -> item_available b = true ->
          item_name a = item_name b -> k <> j).
Proof.
  intros (row & Hrow & ->)%add_to_cart_success.
  unfold get_available_menu in Hrow. rewrite filter_filter_andb in Hrow.
  apply iloc0_filter_first in Hrow as (k & Hk & Hp & Hfirst).
  apply andb_true_iff in Hp as [Hav Hname].
  apply eqb_prop in Hav. apply String.eqb_eq in Hname.
  assert (forall k' row', (k' < k)%nat -> menu_items st !! k' = Some row' ->
            item_available row' = true -> item_name row' <> name) as Hfirst'.
  { intros k' row' Hlt Hk' Hav' Hname'.
    specialize (Hfirst k' row' Hlt Hk'). rewrite Hav' in Hfirst. cbn in Hfirst.
    apply String.eqb_neq in Hfirst. done. }
  exists k, row. repeat split; [done..|].
  intros i j a b Hlt Ha Hb Hava Havb Hab ->.
  assert (b = row) as -> by congruence.
  apply (Hfirst' i a Hlt Ha Hava). congruence.
Qed.

Lemma add_to_cart_first_match_by_name_witness :
  add_to_cart "Coffee" 3 two_coffees
  = (Success, set_cart [mkCartLine 1 "Coffee" 50 3 150] two_coffees)
  /\ exists k row,
       menu_items two_coffees !! k = Some row
       /\ item_name row = "Coffee"
       /\ k <> 2%nat.
Proof.
  assert (add_to_cart "Coffee" 3 two_coffees
          = (Success, set_cart [mkCartLine 1 "Coffee" 50 3 150] two_coffees))
    as Hadd by (vm_compute; reflexivity).
  split; [exact Hadd|].
  destruct (add_to_cart_first_match_by_name "Coffee" 3 two_coffees _ Hadd)
    as (k & row & Hk & _ & Hname & _ & _ & Hlater).
  exists k, row. split; [exact Hk|]. split; [exact Hname|].
  apply (Hlater 0%nat 2%nat (mkMenuItem 1 "Coffee" "Beverage" 50 true)
           (mkMenuItem 9 "Coffee" "Beverage" 75 true)); (lia || reflexivity).
Defined.

(** * Further properties of the script *)

(** ** Catalog *)

Lemma menu_ids_unique_step ev st :
  NoDup (map item_id (menu_items st)) ->
  NoDup (map item_id (menu_items (snd (handle ev st)))).
Proof.
  intros Hnd.
  destruct ev as [name q|idx q|idx|ts instr pk|oid s|edited]; cbn [handle].
  - unfold add_to_cart.
    destruct (Py.truthy name); [destruct (Pd.iloc0 _)|]; done.
  - unfold edit_quantity.
    destruct (cart st !! idx); [destruct (negb _)|]; done.
  - unfold remove_line. destruct (cart st !! idx); done.
  - unfold place_order. destruct (cart st); done.
  - unfold update_status. destruct (matching_index _ _ _); done.
  - unfold save_menu. destruct (Pd.any _) eqn:Hdup; cbn; [done|].
    by apply duplicated_any_false.
Qed.

Lemma menu_ids_unique_reachable st :
  reachable st -> NoDup (map item_id (menu_items st)).
Proof.
  induction 1 as [|st ev _ IH].
  - apply (bool_decide_unpack _). vm_compute. exact I.
  - by apply menu_ids_unique_step.
Qed.

(** X1: in every session the script can be in, the item ids of the catalog
    are pairwise different: two rows with the same id are the same row. *)
Theorem catalog_ids_unique (st : Session) :
  reachable st ->
  NoDup (map item_id (menu_items st))
  /\ forall i j a b,
       menu_items st !! i = Some a -> menu_items st !! j = Some b ->
       item_id a = item_id b -> i = j.
Proof.
  intros Hnd%menu_ids_unique_reachable. split; [exact Hnd|].
  intros i j a b Ha Hb Hid.
  apply (NoDup_lookup _ i j (item_id a) Hnd).
  - by rewrite list_lookup_fmap, Ha.
  - by rewrite list_lookup_fmap, Hb, Hid.
Qed.

Lemma catalog_ids_unique_witness :
  reachable two_coffees /\ NoDup (map item_id (menu_items two_coffees)).
Proof.
  assert (reachable two_coffees) as Hreach.
  { apply (reachable_step initialize_data
             (SaveMenu [ mkMenuItem 1 "Coffee" "Beverage" 50 true;
                         mkMenuItem 2 "Tea" "Beverage" 40 true;
                         mkMenuItem 9 "Coffee" "Beverage" 75 true ])).
    constructor. }
  split; [exact Hreach|].
  exact (proj1 (catalog_ids_unique two_coffees Hreach)).
Defined.

(** X2: saving the catalog as the editor shows it, without an edit, succeeds
    and changes nothing, in every session the script can be in. *)
Theorem save_menu_unedited (st : Session) :
  reachable st -> save_menu (menu_items st) st = (Success, st).
Proof.
  intros Hnd%menu_ids_unique_reachable. unfold save_menu.
  apply duplicated_any_false in Hnd. rewrite Hnd. by destruct st.
Qed.

Lemma save_menu_unedited_witness :
  reachable tea_after_coffee
  /\ save_menu (menu_items tea_after_coffee) tea_after_coffee
     = (Success, tea_after_coffee).
Proof.
  assert (reachable tea_after_coffee) as Hreach
    by (apply reachable_run; constructor).
  split; [exact Hreach|]. exact (save_menu_unedited tea_after_coffee Hreach).
Defined.

(** ** Order store *)

Lemma order_id_by_row st i o :
  ids_sequential st -> orders st !! i = Some o ->
  order_id o = Z.of_nat i + 1.
Proof.
  intros [Hids _] Ho.
  assert (map order_id (orders st) !! i = Some (order_id o)) as Hi
    by (by rewrite list_lookup_fmap, Ho).
  rewrite Hids in Hi. apply lookup_seqZ in Hi as [-> _]. lia.
Qed.

(** X3: in every session the script can be in, the order in row [i] of the
    store (rows counted from 0) has id [i + 1]; so the ids are pairwise
    different, and the counter is the number of orders plus one. *)
Theorem order_ids_by_row (st : Session) :
  reachable st ->
  (forall i o, orders st !! i = Some o -> order_id o = Z.of_nat i + 1)
  /\ NoDup (order_ids st)
  /\ order_id_counter st = Z.of_nat (length (orders st)) + 1.
Proof.
  intros Hseq%ids_sequential_reachable. split; [|split].
  - intros i o. by apply order_id_by_row.
  - destruct Hseq as [Hids _]. unfold order_ids. rewrite Hids.
    apply NoDup_seqZ.
  - destruct Hseq as [Hids Hpos].
    apply (f_equal length) in Hids. rewrite length_map, length_seqZ in Hids.
    lia.
Qed.

Lemma order_ids_by_row_witness :
  reachable two_orders
  /\ order_ids two_orders = [1; 2]
  /\ order_id_counter two_orders = 3.
Proof.
  assert (reachable two_orders) as Hreach
    by (do 2 apply reachable_run; constructor).
  destruct (order_ids_by_row two_orders Hreach) as (_ & _ & Hcounter).
  split; [exact Hreach|]. split; [reflexivity|]. rewrite Hcounter. reflexivity.
Defined.

(** X4: in every session the script can be in, a status update for the id of
    the order in row [i] succeeds and writes the status of that row only;
    every other row of the store, the catalog, the counter and the cart stay
    as they are. *)
Theorem update_status_one_row (st : Session) (i : nat) (o : Order)
    (new_status : Status) :
  reachable st -> orders st !! i = Some o ->
  update_status (order_id o) new_status st
  = (Success, set_orders (<[i := set_status new_status o]> (orders st)) st).
Proof.
  intros Hseq%ids_sequential_reachable Ho.
  destruct (update_status_cases (order_id o) new_status st)
    as [[Hnone _]|[_ ->]].
  { rewrite Forall_forall in Hnone.
    by destruct (Hnone o (list_elem_of_lookup_2 _ _ _ Ho)). }
  do 2 f_equal. apply list_eq. intros j.
  rewrite list_lookup_fmap. destruct (decide (i = j)) as [<-|Hne].
  - rewrite list_lookup_insert_eq by eauto using lookup_lt_Some.
    rewrite Ho. cbn. unfold with_status_of. by rewrite Z.eqb_refl.
  - rewrite list_lookup_insert_ne by done.
    destruct (orders st !! j) as [o'|] eqn:Ho'; [|done]. cbn. f_equal.
    unfold with_status_of.
    rewrite (order_id_by_row st j o' Hseq Ho'), (order_id_by_row st i o Hseq Ho).
    destruct (Z.of_nat j + 1 =? Z.of_nat i + 1) eqn:Heq; [lia|done].
Qed.

Lemma update_status_one_row_witness :
  reachable two_orders
  /\ orders two_orders !! 0%nat = Some coffee_order
  /\ update_status 1 Ready two_orders
     = (Success,
        set_orders (<[0%nat := set_status Ready coffee_order]> (orders two_orders))
          two_orders).
Proof.
  assert (reachable two_orders) as Hreach
    by (do 2 apply reachable_run; constructor).
  assert (orders two_orders !! 0%nat = Some coffee_order) as Ho
    by (vm_compute; reflexivity).
  split; [exact Hreach|]. split; [exact Ho|].
  exact (update_status_one_row two_orders 0 coffee_order Ready Hreach Ho).
Defined.

Lemma map_with_status_none oid s (os : list Order) :
  Forall (fun o => order_id o <> oid) os ->
  map (with_status_of oid s) os = os.
Proof.
  induction 1 as [|o os Hne _ IH]; [done|]. cbn. rewrite IH. f_equal.
  unfold with_status_of. destruct (order_id o =? oid) eqn:Heq; [lia|done].
Qed.

(** The session after "Update Status", whichever branch is taken. *)
Lemma update_status_snd oid s st :
  snd (update_status oid s st)
  = set_orders (map (with_status_of oid s) (orders st)) st.
Proof.
  destruct (update_status_cases oid s st) as [[Hn ->]|[_ ->]]; [|done].
  rewrite map_with_status_none by done. by destruct st.
Qed.

(** The feedback of "Update Status" depends on the ids in the store only. *)
Lemma update_status_fst oid s st :
  fst (update_status oid s st)
  = if bool_decide (oid ∈ order_ids st) then Success else OrderNotFound.
Proof.
  unfold order_ids.
  destruct (update_status_cases oid s st) as [[Hn ->]|[He ->]]; cbn [fst].
  - rewrite bool_decide_eq_false_2; [done|].
    intros (o & Hid & Ho)%list_elem_of_fmap.
    rewrite Forall_forall in Hn. by destruct (Hn o Ho).
  - rewrite bool_decide_eq_true_2; [done|].
    apply Exists_exists in He as (o & Ho & <-). by apply list_elem_of_fmap_2.
Qed.

(** X5: the last status update of an order wins, with the same feedback as
    if it had been the only one; and status updates of two different order
    ids lead to the same session in either order. *)
Theorem update_status_last_wins_and_commutes (st : Session) :
  (forall oid s1 s2,
      update_status oid s2 (snd (update_status oid s1 st))
      = update_status oid s2 st)
  /\ (forall oid1 oid2 s1 s2, oid1 <> oid2 ->
      snd (update_status oid2 s2 (snd (update_status oid1 s1 st)))
      = snd (update_status oid1 s1 (snd (update_status oid2 s2 st)))).
Proof.
  split.
  - intros oid s1 s2. apply injective_projections.
    + rewrite !update_status_fst, update_status_snd. unfold order_ids. cbn.
      by rewrite map_order_id_with_status.
    + rewrite !update_status_snd. unfold set_orders. cbn. f_equal.
      rewrite map_map. apply map_ext. intros o. unfold with_status_of.
      destruct (order_id o =? oid) eqn:Heq; cbn; by rewrite Heq.
  - intros oid1 oid2 s1 s2 Hne.
    rewrite !update_status_snd. unfold set_orders. cbn. f_equal.
    rewrite !map_map. apply map_ext. intros o. unfold with_status_of.
    destruct (order_id o =? oid1) eqn:H1, (order_id o =? oid2) eqn:H2; cbn;
      rewrite ?H1, ?H2; try done. lia.
Qed.

Lemma order_priced_with_status oid s o :
  order_priced (with_status_of oid s o) <-> order_priced o.
Proof. unfold with_status_of. by destruct (order_id o =? oid). Qed.

Lemma orders_priced_step ev st :
  Forall line_consistent (cart st) ->
  Forall order_priced (orders st) ->
  Forall order_priced (orders (snd (handle ev st))).
Proof.
  intros Hcart Hors.
  destruct ev as [name q|idx q|idx|ts instr pk|oid s|edited]; cbn [handle].
  - unfold add_to_cart.
    destruct (Py.truthy name); [destruct (Pd.iloc0 _)|]; done.
  - unfold edit_quantity.
    destruct (cart st !! idx); [destruct (negb _)|]; done.
  - unfold remove_line. destruct (cart st !! idx); done.
  - unfold place_order. destruct (cart st) as [|l c] eqn:Hc; [done|].
    cbn [snd orders]. apply Forall_app. split; [done|].
    apply Forall_singleton. by repeat split.
  - rewrite update_status_snd. cbn. rewrite Forall_fmap.
    revert Hors. apply Forall_proper; [|done].
    intros o. cbn. by rewrite order_priced_with_status.
  - unfold save_menu. destruct (Pd.any _); done.
Qed.

(** X6: in every session the script can be in, each order of the store has
    at least one line item, its total amount is the final amount (subtotal
    minus discount) computed from its own line items, and the subtotal of
    each of its lines is price times quantity; status updates do not disturb
    this. *)
Theorem stored_orders_priced (st : Session) :
  reachable st -> Forall order_priced (orders st).
Proof.
  induction 1 as [|st ev Hreach IH].
  - constructor.
  - apply orders_priced_step; [|done]. by apply cart_consistent_reachable.
Qed.

Lemma stored_orders_priced_witness :
  reachable two_orders /\ Forall order_priced (orders two_orders).
Proof.
  assert (reachable two_orders) as Hreach
    by (do 2 apply reachable_run; constructor).
  split; [exact Hreach|]. exact (stored_orders_priced two_orders Hreach).
Defined.



Lemma counter_step ev st :
  (order_id_counter (snd (handle ev st)) = order_id_counter st
   /\ length (orders (snd (handle ev st))) = length (orders st))
  \/ (order_id_counter (snd (handle ev st)) = order_id_counter st + 1
      /\ length (orders (snd (handle ev st))) = S (length (orders st))
      /\ exists ts instr pk, ev = PlaceOrder ts instr pk).
Proof.
  destruct ev as [name q|idx q|idx|ts instr pk|oid s|edited]; cbn [handle].
  - left. unfold add_to_cart.
    destruct (Py.truthy name); [destruct (Pd.iloc0 _)|]; done.
  - left. unfold edit_quantity.
    destruct (cart st !! idx); [destruct (negb _)|]; done.
  - left. unfold remove_line. destruct (cart st !! idx); done.
  - unfold place_order. destruct (cart st); [by left|]. right. cbn.
    rewrite length_app. cbn. split; [done|]. split; [lia|eauto].
  - left. rewrite update_status_snd. cbn. by rewrite length_map.
  - left. unfold save_menu. destruct (Pd.any _); done.
Qed.

(** X8: over every sequence of events, from any session, the id counter
    advances by exactly the number of orders added to the store; the counter
    never goes back and the store never shrinks. *)
Theorem counter_tracks_orders (evs : list Event) (st : Session) :
  order_id_counter (run evs st) - order_id_counter st
  = Z.of_nat (length (orders (run evs st))) - Z.of_nat (length (orders st))
  /\ order_id_counter st <= order_id_counter (run evs st)
  /\ (length (orders st) <= length (orders (run evs st)))%nat.
Proof.
  revert st. induction evs as [|ev evs IH]; intros st; cbn.
  - repeat split; lia.
  - specialize (IH (snd (handle ev st))). unfold run in IH.
    destruct (counter_step ev st) as [[Hc Hl]|(Hc & Hl & _)];
      rewrite Hc, Hl in IH; lia.
Qed.

(** ** Cart *)

Lemma truthy_true (s : string) : Py.truthy s = true <-> s <> "".
Proof. destruct s; cbn; split; (done || discriminate). Qed.

Lemma iloc0_filter_none {A} (p : A -> bool) (l : list A) :
  Pd.iloc0 (List.filter p l) = None <-> Forall (fun x => p x = false) l.
Proof.
  unfold Pd.iloc0. induction l as [|a l IH]; cbn.
  - split; [constructor|done].
  - rewrite Forall_cons. destruct (p a) eqn:Hpa; cbn.
    + split; [discriminate|]. intros [? _]. discriminate.
    + rewrite IH. tauto.
Qed.

(** X9: what "Add to Cart" does is decided by the selected name alone.  An
    empty name is skipped without a message.  A name carried by some
    available row of the catalog appends one line with that name and the
    quantity entered, and touches nothing else.  A name that only rows that
    are not available carry, or no row at all, ends in an IndexError, with
    the session as before: an item that is not available cannot get into the
    cart. *)
Theorem add_to_cart_outcomes (name : string) (quantity : Z) (st : Session) :
  (name = "" -> add_to_cart name quantity st = (Nothing, st))
  /\ (name <> "" ->
      (exists r, r ∈ menu_items st /\ item_available r = true
                 /\ item_name r = name) ->
      exists l, add_to_cart name quantity st
                = (Success, set_cart (cart st ++ [l]) st)
                /\ line_name l = name /\ line_quantity l = quantity)
  /\ (name <> "" ->
      (forall r, r ∈ menu_items st -> item_name r = name ->
                 item_available r = false) ->
      add_to_cart name quantity st = (IndexError, st)).
Proof.
  split; [by intros ->|]. split.
  - intros Hname%truthy_true (r & Hr & Hav & Hrn). unfold add_to_cart.
    rewrite Hname. unfold get_available_menu. rewrite filter_filter_andb.
    destruct (Pd.iloc0 _) as [item_details|] eqn:Hsel; [eauto|].
    apply iloc0_filter_none in Hsel. rewrite Forall_forall in Hsel.
    specialize (Hsel r Hr). cbn in Hsel.
    rewrite Hav, (proj2 (String.eqb_eq _ _) Hrn) in Hsel. discriminate.
  - intros Hname%truthy_true Hnone. unfold add_to_cart.
    rewrite Hname. unfold get_available_menu. rewrite filter_filter_andb.
    destruct (Pd.iloc0 _) as [item_details|] eqn:Hsel; [|done].
    apply iloc0_filter_first in Hsel as (k & Hk & Hp & _).
    apply andb_true_iff in Hp as [Hav Hrn].
    apply eqb_prop in Hav. apply String.eqb_eq in Hrn.
    rewrite (Hnone item_details (list_elem_of_lookup_2 _ _ _ Hk) Hrn) in Hav.
    discriminate.
Qed.

Example add_to_cart_unavailable_burger :
  add_to_cart "Burger" 1 initialize_data = (IndexError, initialize_data).
Proof. reflexivity. Qed.

(** X10: the remove button of a row of the cart takes exactly that line out:
    the lines before it keep their place, the lines after it move up by one,
    the cart is one line shorter, and the catalog, the order store and the
    counter are untouched. *)
Theorem remove_line_effect (idx : nat) (st : Session) (l : CartLine) :
  cart st !! idx = Some l ->
  remove_line idx st
  = (Rerun, set_cart (take idx (cart st) ++ drop (S idx) (cart st)) st)
  /\ S (length (cart (snd (remove_line idx st)))) = length (cart st)
  /\ (forall j, (j < idx)%nat ->
        cart (snd (remove_line idx st)) !! j = cart st !! j)
  /\ (forall j, (idx <= j)%nat ->
        cart (snd (remove_line idx st)) !! j = cart st !! S j).
Proof.
  unfold remove_line. intros Hl. rewrite Hl. cbn [snd cart set_cart].
  pose proof (lookup_lt_Some _ _ _ Hl) as Hlt.
  split; [by rewrite delete_take_drop|]. split; [|split].
  - rewrite length_delete by eauto. lia.
  - intros j Hj. by apply list_lookup_delete_lt.
  - intros j Hj. by apply list_lookup_delete_ge.
Qed.

Lemma remove_line_effect_witness :
  cart tea_after_coffee !! 0%nat = Some (mkCartLine 2 "Tea" 40 1 40)
  /\ remove_line 0 tea_after_coffee = (Rerun, set_cart [] tea_after_coffee).
Proof.
  assert (cart tea_after_coffee !! 0%nat = Some (mkCartLine 2 "Tea" 40 1 40))
    as Hl by (vm_compute; reflexivity).
  split; [exact Hl|].
  destruct (remove_line_effect 0 tea_after_coffee _ Hl) as [-> _].
  reflexivity.
Defined.

(** X11: removing the last row right after a successful "Add to Cart" gives
    back the session from before the add. *)
Theorem add_then_remove_last (name : string) (quantity : Z)
    (st st' : Session) :
  add_to_cart name quantity st = (Success, st') ->
  remove_line (length (cart st)) st' = (Rerun, st).
Proof.
  intros (item_details & _ & ->)%add_to_cart_success.
  unfold remove_line. cbn [cart set_cart].
  rewrite lookup_app_r, Nat.sub_diag by lia. cbn [lookup list_lookup].
  rewrite delete_middle, app_nil_r. by destruct st.
Qed.

Lemma add_then_remove_last_witness :
  add_to_cart "Tea" 3 coffee_cart
  = (Success, snd (add_to_cart "Tea" 3 coffee_cart))
  /\ remove_line 1 (snd (add_to_cart "Tea" 3 coffee_cart))
     = (Rerun, coffee_cart).
Proof.
  assert (add_to_cart "Tea" 3 coffee_cart
          = (Success, snd (add_to_cart "Tea" 3 coffee_cart))) as Hadd
    by reflexivity.
  split; [exact Hadd|].
  exact (add_then_remove_last "Tea" 3 coffee_cart _ Hadd).
Defined.

(** X12: in every session the script can be in, changing the quantity of a
    cart line and then entering the old quantity again gives back the
    session from before, subtotal included. *)
Theorem edit_quantity_back (idx : nat) (new_qty : Z) (st : Session)
    (l : CartLine) :
  reachable st -> cart st !! idx = Some l -> new_qty <> line_quantity l ->
  edit_quantity idx (line_quantity l) (snd (edit_quantity idx new_qty st))
  = (Rerun, st).
Proof.
  intros Hcons%cart_consistent_reachable Hl Hq.
  destruct (edit_quantity idx new_qty st) as [fb st1] eqn:Hed1.
  assert (fb = Rerun) as ->.
  { revert Hed1. unfold edit_quantity. rewrite Hl.
    destruct (new_qty =? line_quantity l) eqn:Heq; [lia|]. by intros [= <- _]. }
  apply edit_quantity_rerun in Hed1 as (item & Hitem & _ & ->).
  assert (item = l) as -> by congruence. cbn [snd].
  pose proof (lookup_lt_Some _ _ _ Hl) as Hlt.
  destruct (edit_quantity idx (line_quantity l) _) as [fb st2] eqn:Hed2.
  assert (fb = Rerun) as ->.
  { revert Hed2. unfold edit_quantity. cbn [cart set_cart].
    rewrite list_lookup_insert_eq by done. cbn [line_quantity].
    destruct (line_quantity l =? new_qty) eqn:Heq; [lia|]. by intros [= <- _]. }
  apply edit_quantity_rerun in Hed2 as (item2 & Hitem2 & _ & ->).
  cbn [cart set_cart] in Hitem2.
  rewrite list_lookup_insert_eq in Hitem2 by done.
  injection Hitem2 as <-. cbn. f_equal.
  rewrite list_insert_insert_eq. unfold set_cart. cbn.
  rewrite list_insert_id; [by destruct st|]. rewrite Hl. f_equal.
  rewrite Forall_forall in Hcons.
  specialize (Hcons l (list_elem_of_lookup_2 _ _ _ Hl)).
  unfold line_consistent in Hcons.
  change (Py.float_of_int (line_quantity l) * line_price l)%float
    with (Py.mul_int_float (line_quantity l) (line_price l)).
  rewrite mul_int_float_comm, <- Hcons. by destruct l.
Qed.

Lemma edit_quantity_back_witness :
  reachable tea_after_coffee
  /\ cart tea_after_coffee !! 0%nat = Some (mkCartLine 2 "Tea" 40 1 40)
  /\ edit_quantity 0 1 (snd (edit_quantity 0 6 tea_after_coffee))
     = (Rerun, tea_after_coffee).
Proof.
  assert (reachable tea_after_coffee) as Hreach
    by (apply reachable_run; constructor).
  assert (cart tea_after_coffee !! 0%nat = Some (mkCartLine 2 "Tea" 40 1 40))
    as Hl by (vm_compute; reflexivity).
  split; [exact Hreach|]. split; [exact Hl|].
  apply (edit_quantity_back 0 6 tea_after_coffee _ Hreach Hl). cbn. lia.
Defined.

(** ** Preparation time *)

Lemma estimated_time_foldr st :
  get_estimated_time st
  = 10 + 2 * foldr Z.add 0 (map line_quantity (cart st)).
Proof. unfold get_estimated_time, Py.sum. rewrite fold_left_add_foldr. lia. Qed.

Lemma sum_quantities_app (c1 c2 : list CartLine) :
  foldr Z.add 0 (map line_quantity (c1 ++ c2))
  = foldr Z.add 0 (map line_quantity c1)
    + foldr Z.add 0 (map line_quantity c2).
Proof. induction c1 as [|l c1 IH]; cbn; [|rewrite IH]; lia. Qed.

Lemma sum_quantities_split (c : list CartLine) (idx : nat) (l : CartLine) :
  c !! idx = Some l ->
  c = (take idx c ++ l :: drop (S idx) c)%list
  /\ length (take idx c) = idx.
Proof.
  intros Hl. split; [by rewrite take_drop_middle|].
  apply length_take_le. apply lookup_lt_Some in Hl. lia.
Qed.

(** X13: the estimated preparation time follows the cart: a successful "Add
    to Cart" of quantity [q] adds [2 * q] minutes, a quantity edit adds twice
    the change of the quantity, removing a line takes off twice its quantity,
    and after an order was placed the estimate is back at the base time of 10
    minutes. *)
Theorem estimated_time_tracks_cart (st : Session) :
  (forall name q st',
      add_to_cart name q st = (Success, st') ->
      get_estimated_time st' = get_estimated_time st + 2 * q)
  /\ (forall idx q l,
      cart st !! idx = Some l ->
      get_estimated_time (snd (edit_quantity idx q st))
      = get_estimated_time st + 2 * (q - line_quantity l))
  /\ (forall idx l,
      cart st !! idx = Some l ->
      get_estimated_time (snd (remove_line idx st))
      = get_estimated_time st - 2 * line_quantity l)
  /\ (forall ts instr pk st',
      place_order ts instr pk st = (Success, st') ->
      get_estimated_time st' = 10).
Proof.
  split; [|split; [|split]].
  - intros name q st' (item & _ & ->)%add_to_cart_success.
    rewrite !estimated_time_foldr. cbn [cart set_cart].
    rewrite sum_quantities_app. cbn. lia.
  - intros idx q l Hl.
    destruct (edit_quantity idx q st) as [fb st'] eqn:Hed.
    destruct (decide (fb = Rerun)) as [->|Hfb].
    + apply edit_quantity_rerun in Hed as (item & Hitem & _ & ->).
      assert (item = l) as -> by congruence.
      destruct (sum_quantities_split _ _ _ Hl) as [Hsplit Hlen].
      rewrite !estimated_time_foldr. cbn [snd cart set_cart].
      rewrite Hsplit at 2. rewrite Hsplit at 1.
      rewrite <- Hlen at 1. rewrite insert_app_r_alt, Nat.sub_diag by lia.
      cbn [list_insert insert]. rewrite !sum_quantities_app. cbn. lia.
    + assert (q = line_quantity l) as ->.
      { revert Hed. unfold edit_quantity. rewrite Hl.
        destruct (q =? line_quantity l) eqn:Heq; [lia|]. cbn. congruence. }
      apply edit_quantity_other in Hed as ->; [cbn; lia|done].
  - intros idx l Hl. unfold remove_line. rewrite Hl.
    destruct (sum_quantities_split _ _ _ Hl) as [Hsplit Hlen].
    rewrite !estimated_time_foldr. cbn [snd cart set_cart].
    rewrite delete_take_drop. rewrite Hsplit at 3.
    rewrite !sum_quantities_app. cbn. lia.
  - intros ts instr pk st'. unfold place_order.
    destruct (cart st); [discriminate|]. by intros [= <-].
Qed.

(** ** Pricing *)

(** Subtracting the [0] that [discount] starts with changes no float. *)
Lemma float_sub_zero (x : float) : (x - 0)%float = x.
Proof.
  rewrite <- (SF2Prim_Prim2SF (x - 0)). rewrite <- (SF2Prim_Prim2SF x) at 2.
  rewrite sub_spec. f_equal.
  change (Prim2SF 0) with (S754_zero false).
  destruct (Prim2SF x) as [[|]| | |]; reflexivity.
Qed.

(** X14: a cart with fewer than three lines whose subtotal is not above 500
    gets no discount, and its final amount is the subtotal itself, bit for
    bit. *)
Theorem no_discount_pays_subtotal (cart_df : list CartLine) :
  Py.gt_float_int (Pd.sum (map line_subtotal cart_df)) 500 = false ->
  (length cart_df < 3)%nat ->
  discount (order_summary cart_df) = 0%float
  /\ final_amount (order_summary cart_df) = total_amount (order_summary cart_df).
Proof.
  intros Hgt Hlen%Nat.leb_gt.
  unfold order_summary, calculate_total_savings.
  cbn [discount final_amount total_amount].
  rewrite Hgt, Hlen. split; [reflexivity|]. apply float_sub_zero.
Qed.

Lemma no_discount_pays_subtotal_witness :
  Py.gt_float_int (Pd.sum (map line_subtotal (cart coffee_cart))) 500 = false
  /\ (length (cart coffee_cart) < 3)%nat
  /\ final_amount (order_summary (cart coffee_cart)) = 100%float.
Proof.
  assert (Py.gt_float_int (Pd.sum (map line_subtotal (cart coffee_cart))) 500
          = false) as Hgt by (vm_compute; reflexivity).
  assert (length (cart coffee_cart) < 3)%nat as Hlen by (cbn; lia).
  split; [exact Hgt|]. split; [exact Hlen|].
  destruct (no_discount_pays_subtotal (cart coffee_cart) Hgt Hlen) as [_ ->].
  vm_compute. reflexivity.
Defined.

(** ** Sessions reached through the pages *)

Lemma ui_reachable_reachable st : ui_reachable st -> reachable st.
Proof. induction 1; by constructor. Qed.

Lemma add_to_cart_option name quantity st :
  name ∈ select_item_options st ->
  fst (add_to_cart name quantity st)
  = if Py.truthy name then Success else Nothing.
Proof.
  intros (r & -> & Hr)%list_elem_of_fmap. unfold add_to_cart.
  destruct (Py.truthy (item_name r)); [|done].
  destruct (Pd.iloc0 _) as [item_details|] eqn:Hsel; [done|].
  apply iloc0_filter_none in Hsel. rewrite Forall_forall in Hsel.
  specialize (Hsel r Hr). cbn in Hsel. by rewrite String.eqb_refl in Hsel.
Qed.

(** X15: an event the pages can deliver never runs into an error branch
    other than the duplicate-id check of the menu editor.  "Add to Cart"
    with an option of the select box succeeds (an option that is the empty
    string is skipped), so [.iloc[0]] never raises; the remove button takes a
    line out; "Place Order" succeeds, so the empty-cart warning is never
    shown; "Update Status" succeeds, so "Order ID not found" is never
    shown. *)
Theorem offered_events_outcome (st : Session) (ev : Event) :
  offered st ev ->
  match ev with
  | AddToCart name _ =>
      fst (handle ev st) = if Py.truthy name then Success else Nothing
  | EditQuantity _ _ =>
      fst (handle ev st) = Rerun \/ fst (handle ev st) = Nothing
  | RemoveLine _ => fst (handle ev st) = Rerun
  | PlaceOrder _ _ _ => fst (handle ev st) = Success
  | UpdateStatus _ _ => fst (handle ev st) = Success
  | SaveMenu _ =>
      fst (handle ev st) = Success \/ fst (handle ev st) = DuplicateId
  end.
Proof.
  destruct ev as [name q|idx q|idx|ts instr pk|oid s|edited]; cbn [handle offered].
  - intros (_ & Hopt & _). by apply add_to_cart_option.
  - intros _. unfold edit_quantity.
    destruct (cart st !! idx); [destruct (negb _)|]; cbn; auto.
  - intros (_ & Hidx). unfold remove_line.
    destruct (lookup_lt_is_Some_2 _ _ Hidx) as [l ->]. done.
  - intros (_ & Hcart). unfold place_order. by destruct (cart st).
  - intros (_ & Hoid). rewrite update_status_fst.
    by rewrite bool_decide_eq_true_2.
  - intros _. unfold save_menu. destruct (Pd.any _); cbn; auto.
Qed.

Lemma offered_events_outcome_witness :
  offered tea_after_coffee (UpdateStatus 1 Completed)
  /\ fst (update_status 1 Completed tea_after_coffee) = Success.
Proof.
  assert (offered tea_after_coffee (UpdateStatus 1 Completed)) as Hoff.
  { split; [discriminate|]. vm_compute. left. }
  split; [exact Hoff|].
  exact (offered_events_outcome tea_after_coffee (UpdateStatus 1 Completed) Hoff).
Defined.

Lemma quantities_positive_step ev st :
  offered st ev ->
  quantities_positive (cart st) ->
  Forall (fun o => quantities_positive (order_items o)) (orders st) ->
  quantities_positive (cart (snd (handle ev st)))
  /\ Forall (fun o => quantities_positive (order_items o))
       (orders (snd (handle ev st))).
Proof.
  unfold quantities_positive. intros Hoff Hcart Hors.
  destruct ev as [name q|idx q|idx|ts instr pk|oid s|edited];
    cbn [handle offered] in *.
  - destruct Hoff as (_ & _ & Hq).
    destruct (add_to_cart name q st) as [fb st'] eqn:Hadd.
    destruct (decide (fb = Success)) as [->|Hfb].
    + apply add_to_cart_success in Hadd as (item & _ & ->). cbn.
      split; [|done]. apply Forall_app. split; [done|].
      by apply Forall_singleton.
    + revert Hadd. unfold add_to_cart.
      destruct (Py.truthy name); [destruct (Pd.iloc0 _)|]; intros [= <- <-];
        done.
  - destruct Hoff as (_ & _ & Hq).
    destruct (edit_quantity idx q st) as [fb st'] eqn:Hed.
    destruct (decide (fb = Rerun)) as [->|Hfb].
    + apply edit_quantity_rerun in Hed as (item & Hitem & _ & ->). cbn.
      split; [|done]. by apply Forall_insert.
    + by apply edit_quantity_other in Hed as ->.
  - unfold remove_line. destruct (cart st !! idx); cbn; [|done].
    split; [|done]. by apply Forall_delete.
  - unfold place_order. destruct (cart st) as [|l c] eqn:Hc; cbn.
    + by rewrite Hc.
    + split; [constructor|]. apply Forall_app. split; [done|].
      by apply Forall_singleton.
  - rewrite update_status_snd. cbn. split; [done|].
    rewrite Forall_fmap. eapply Forall_impl; [exact Hors|].
    intros o Ho. cbn. unfold with_status_of.
    by destruct (order_id o =? oid).
  - unfold save_menu. by destruct (Pd.any _).
Qed.

(** X16: in every session reached through the pages, each cart line and
    each line item of each stored order has a quantity of at least one (both
    quantity inputs have a minimum of 1); so the estimated preparation time
    is at least 10 minutes plus 2 minutes per cart line. *)
Theorem quantities_at_least_one (st : Session) :
  ui_reachable st ->
  quantities_positive (cart st)
  /\ Forall (fun o => quantities_positive (order_items o)) (orders st)
  /\ 10 + 2 * Z.of_nat (length (cart st)) <= get_estimated_time st.
Proof.
  intros Hui.
  assert (quantities_positive (cart st)
          /\ Forall (fun o => quantities_positive (order_items o)) (orders st))
    as [Hcart Hors].
  { induction Hui as [|st ev _ [IHc IHo] Hoff].
    - split; constructor.
    - by apply quantities_positive_step. }
  split; [done|]. split; [done|].
  rewrite estimated_time_foldr. clear -Hcart.
  induction Hcart as [|l c Hl _ IH]; cbn [map foldr length]; lia.
Qed.

Lemma quantities_at_least_one_witness :
  ui_reachable coffee_cart
  /\ 12 <= get_estimated_time coffee_cart.
Proof.
  assert (ui_reachable coffee_cart) as Hui.
  { apply (ui_reachable_step initialize_data (AddToCart "Coffee" 2));
      [constructor|].
    split; [discriminate|]. split; [vm_compute; left|lia]. }
  split; [exact Hui|].
  destruct (quantities_at_least_one coffee_cart Hui) as (_ & _ & Htime).
  exact Htime.
Defined.

(** ** Session start *)

(** X17: [initialize_data] fills in the keys that are missing and leaves the
    keys that are there: on a fresh session state it gives the initial
    session, on the state of a session that was initialised before (every
    later run of the script) it changes nothing, so a second call never
    undoes the first; a cart, an order store, a counter or a catalog in the
    session state is never overwritten. *)
Theorem initialize_data_keeps_state (ss : SessionState) :
  initialize_data_in (mkSessionState None None None None)
  = state_of initialize_data
  /\ (forall st, initialize_data_in (state_of st) = state_of st)
  /\ initialize_data_in (initialize_data_in ss) = initialize_data_in ss
  /\ (forall m, ss_menu_items ss = Some m ->
        ss_menu_items (initialize_data_in ss) = Some m)
  /\ (forall os, ss_orders ss = Some os ->
        ss_orders (initialize_data_in ss) = Some os)
  /\ (forall n, ss_order_id_counter ss = Some n ->
        ss_order_id_counter (initialize_data_in ss) = Some n)
  /\ (forall c, ss_cart ss = Some c ->
        ss_cart (initialize_data_in ss) = Some c)
  /\ exists st, initialize_data_in ss = state_of st.
Proof.
  split; [reflexivity|]. split; [reflexivity|].
  split; [by destruct ss as [[m|] [os|] [n|] [c|]]|].
  split; [intros m Hm; cbn; by rewrite Hm|].
  split; [intros os Hos; cbn; by rewrite Hos|].
  split; [intros n Hn; cbn; by rewrite Hn|].
  split; [intros c Hc; cbn; by rewrite Hc|].
  exists (mkSession
            (default (menu_items initialize_data) (ss_menu_items ss))
            (default (orders initialize_data) (ss_orders ss))
            (default (order_id_counter initialize_data) (ss_order_id_counter ss))
            (default (cart initialize_data) (ss_cart ss))).
  by destruct ss as [[m|] [os|] [n|] [c|]].
Qed.
